(** * nanoleaf-go: the effects client ([effects.go])

    A shallow embedding of [effects.go]: the eleven methods of
    [NanoEffects] (List, Set, Get, GetEffectData, GetAllEffectData,
    RenameEffect, AddEffect, DeleteEffect, WriteRaw, Display, DisplayTemp)
    and the streaming encoder [ToString].

    Go values are modelled as follows.
    - [int] status codes and the integer fields of a stream effect are [Z];
    - [string] is [string], [[]byte] is [list byte];
    - a Go slice whose nil-ness a caller can observe is [slice A], with
      [None] for the nil slice;
    - a [(T, error)] result is a pair [T * option error], [None] being the
      nil error: Go returns both components on every path;
    - the HTTP client and [json.Unmarshal] are collaborators: the client is
      a field of [Nanoleaf], the decoder an instance of [Unmarshal];
    - what a method does to the outside (the request it sends, the line it
      prints) is recorded in a [World] threaded through the [IO] monad. *)

From Stdlib Require Import ZArith List String Ascii Bool Lia.
From Stdlib Require Import DecimalString DecimalPos DecimalZ SpecFloat.
Import ListNotations.

Local Open Scope string_scope.
Local Open Scope Z_scope.

(** ** Go basics *)

(** A slice with an observable nil: [None] is [nil], [Some l] a non-nil
    slice holding [l]. *)
Definition slice (A : Type) : Type := option (list A).

(** [len(s)] as a Go [int]. *)
Definition len {A} (l : list A) : Z := Z.of_nat (List.length l).

Definition float64 : Type := spec_float.

(** ** [fmt.Sprintf] with the verbs the file uses *)

Module fmt.

(** The verb [%d] on an integer: decimal digits, a leading [-] for a
    negative value, no padding. *)
Definition d (n : Z) : string := NilZero.string_of_int (Z.to_int n).

End fmt.

(** ** Data model *)

Record PaletteColor := {
  Hue : Z;
  Saturation : Z;
  Brightness : Z;
  Probability : float64
}.

(** [interface{}] holding an int, float, bool or string (or nothing). *)
Inductive any :=
| AnyNil
| AnyInt (n : Z)
| AnyFloat (f : float64)
| AnyBool (b : bool)
| AnyString (s : string).

Record PluginOption := {
  OptName : string;
  OptValue : any
}.

Record EffectData := {
  Command : string;
  Loop : bool;
  Name : string;
  Type_ : string;
  Version : string;
  Data : string;
  ColorType : string;
  Palette : slice PaletteColor;
  PluginType : string;
  PluginUuid : string;
  PluginOptions : slice PluginOption;
  OverlayPalette : slice PaletteColor;
  OverlayColorType : string;
  HasOverlay : bool;
  LogicalPanelsEnabled : bool
}.

(** [var data EffectData]: every field at its zero value. *)
Definition zeroEffectData : EffectData := {|
  Command := ""; Loop := false; Name := ""; Type_ := ""; Version := "";
  Data := ""; ColorType := ""; Palette := None; PluginType := "";
  PluginUuid := ""; PluginOptions := None; OverlayPalette := None;
  OverlayColorType := ""; HasOverlay := false; LogicalPanelsEnabled := false
|}.

(** [data.Command = c] and [data.Name = n] on a struct held by value. *)
Definition setCommand (c : string) (x : EffectData) : EffectData := {|
  Command := c; Loop := Loop x; Name := Name x; Type_ := Type_ x;
  Version := Version x; Data := Data x; ColorType := ColorType x;
  Palette := Palette x; PluginType := PluginType x;
  PluginUuid := PluginUuid x; PluginOptions := PluginOptions x;
  OverlayPalette := OverlayPalette x;
  OverlayColorType := OverlayColorType x; HasOverlay := HasOverlay x;
  LogicalPanelsEnabled := LogicalPanelsEnabled x
|}.

Definition setName (n : string) (x : EffectData) : EffectData := {|
  Command := Command x; Loop := Loop x; Name := n; Type_ := Type_ x;
  Version := Version x; Data := Data x; ColorType := ColorType x;
  Palette := Palette x; PluginType := PluginType x;
  PluginUuid := PluginUuid x; PluginOptions := PluginOptions x;
  OverlayPalette := OverlayPalette x;
  OverlayColorType := OverlayColorType x; HasOverlay := HasOverlay x;
  LogicalPanelsEnabled := LogicalPanelsEnabled x
|}.

(** Modelled from the spec: the declarations of [StreamEffect], of its
    panels and of their frames are not in [effects.go], which only reads
    [effect.Panels], [panel.ID], [panel.Frames] and the four frame fields
    and prints each with [%d].  The spec gives a panel a numeric id and an
    ordered sequence of frames, a frame its red, green, blue and transition
    time.  The integer fields are [Z], which covers every Go integer type
    [%d] can print; [ToString] only takes [len] of and ranges over the two
    slices, so they are plain lists. *)
Record StreamFrame := {
  Red : Z;
  Green : Z;
  Blue : Z;
  Transition : Z
}.

Record StreamPanel := {
  ID : Z;
  Frames : list StreamFrame
}.

Record StreamEffect := {
  Panels : list StreamPanel
}.

(** ** Errors, requests and responses *)

(** The error values the methods return.  The four sentinels
    ([ErrUnauthorized], ...) are package-level variables declared next to
    [effects.go]; [ErrTransport] stands for whatever error the HTTP client
    itself reports when it obtains no response. *)
Inductive error :=
| ErrUnauthorized
| ErrEffectNotFound
| ErrUnexpectedResponse
| ErrParsingJSON
| ErrTransport (msg : string).

Module http.
Definition StatusOK : Z := 200.
Definition StatusNoContent : Z := 204.
Definition StatusUnauthorized : Z := 401.
Definition StatusNotFound : Z := 404.
End http.

(** A value stored in a [jsonPayload] ([map[string]interface{}]): the file
    stores strings, a bool, an int, an [EffectData] and nested payloads. *)
#[warnings="-register-all"]
Inductive jsonValue :=
| JString (s : string)
| JBool (b : bool)
| JInt (n : Z)
| JEffectData (x : EffectData)
| JPayload (m : list (string * jsonValue)).

(** A map literal, its keys in the order the source writes them (the keys
    of one literal are distinct). *)
Definition jsonPayload : Type := list (string * jsonValue).

Inductive Method := GET | PUT.

(** What [client.R()...Get(url)] or [...SetHeader(k, v).SetBody(b).Put(url)]
    puts on the wire. *)
Record Request := {
  method : Method;
  target : string;
  header : list (string * string);
  payload : option jsonPayload
}.

Record Response := {
  StatusCode : Z;
  Body : list Byte.byte
}.

(** [resp, err := ...]: a response, or the client's error. *)
Inductive Reply :=
| Answered (resp : Response)
| Failed (err : error).

Record Nanoleaf := {
  url : string;
  token : string;
  client : Request -> Reply
}.

Record NanoEffects := {
  nano : Nanoleaf;
  endpoint : string
}.

(** ** The outside world and the [IO] monad *)

(** The exchanges made with the device, oldest first, and the lines printed
    by [fmt.Println]. *)
Record World := {
  wire : list (Request * Reply);
  stdout : list string
}.

Definition IO (A : Type) : Type := World -> A * World.

Definition ret {A} (a : A) : IO A := fun w => (a, w).

Definition bind {A B} (m : IO A) (k : A -> IO B) : IO B :=
  fun w => let (a, w') := m w in k a w'.

Declare Scope io_scope.
Delimit Scope io_scope with io.
Notation "x <- m ;; k" := (bind m (fun x => k))
  (at level 61, m at next level, right associativity) : io_scope.
Notation "m ;; k" := (bind m (fun _ => k))
  (at level 61, right associativity) : io_scope.
Local Open Scope io_scope.

(** Sending a request: the client answers, the exchange is on the wire. *)
Definition send (n : Nanoleaf) (r : Request) : IO Reply :=
  fun w =>
    let a := client n r in
    (a, {| wire := (wire w ++ [(r, a)])%list; stdout := stdout w |}).

Definition R_Get (n : Nanoleaf) (u : string) : IO Reply :=
  send n {| method := GET; target := u; header := []; payload := None |}.

Definition R_Put (n : Nanoleaf) (body : jsonPayload) (u : string) : IO Reply :=
  send n {| method := PUT; target := u;
            header := [("Content-Type", "application/json")];
            payload := Some body |}.

Definition Println (line : string) : IO unit :=
  fun w => (tt, {| wire := wire w; stdout := (stdout w ++ [line])%list |}).

(** [json.Unmarshal(body, &v)]: given the bytes and the value [v] holds, the
    value it holds afterwards and the error, whose message is all the file
    uses.  On an error the library may already have written part of the
    input into [v]. *)
Class Unmarshal (T : Type) := {
  json_Unmarshal : list Byte.byte -> T -> T * option string
}.

(** The anonymous [struct { Animations []EffectData }] of
    [GetAllEffectData]. *)
Record animationsDoc := {
  Animations : slice EffectData
}.

Definition newNanoEffects (n : Nanoleaf) : NanoEffects := {|
  nano := n;
  endpoint := (url n ++ "/" ++ token n ++ "/effects")%string
|}.

(** ** The methods of [NanoEffects] *)

Section Effects.

Context {UnmarshalNames : Unmarshal (slice string)}
        {UnmarshalName : Unmarshal string}
        {UnmarshalData : Unmarshal EffectData}
        {UnmarshalAll : Unmarshal animationsDoc}.

Definition List (e : NanoEffects) : IO (slice string * option error) :=
  let url := (endpoint e ++ "/effectsList")%string in
  r <- R_Get (nano e) url ;;
  match r with
  | Failed err => ret (None, Some err)
  | Answered resp =>
    if StatusCode resp =? http.StatusUnauthorized then
      ret (None, Some ErrUnauthorized)
    else if negb (StatusCode resp =? http.StatusOK) then
      ret (None, Some ErrUnexpectedResponse)
    else
      let effects : slice string := None in
      match json_Unmarshal (Body resp) effects with
      | (_, Some _) => ret (None, Some ErrParsingJSON)
      | (effects, None) => ret (effects, None)
      end
  end.

Definition Set_ (e : NanoEffects) (name : string) : IO (option error) :=
  let body := [("select", JString name)] in
  r <- R_Put (nano e) body (endpoint e) ;;
  match r with
  | Failed err => ret (Some err)
  | Answered resp =>
    if StatusCode resp =? http.StatusUnauthorized then
      ret (Some ErrUnauthorized)
    else if StatusCode resp =? http.StatusNotFound then
      ret (Some ErrEffectNotFound)
    else if negb (StatusCode resp =? http.StatusNoContent) then
      ret (Some ErrUnexpectedResponse)
    else ret None
  end.

Definition Get (e : NanoEffects) : IO (string * option error) :=
  let url := (endpoint e ++ "/select")%string in
  r <- R_Get (nano e) url ;;
  match r with
  | Failed err => ret ("", Some err)
  | Answered resp =>
    if StatusCode resp =? http.StatusUnauthorized then
      ret ("", Some ErrUnauthorized)
    else if negb (StatusCode resp =? http.StatusOK) then
      ret ("", Some ErrUnexpectedResponse)
    else
      let effect : string := "" in
      match json_Unmarshal (Body resp) effect with
      | (_, Some _) => ret ("", Some ErrParsingJSON)
      | (effect, None) => ret (effect, None)
      end
  end.

Definition GetEffectData (e : NanoEffects) (effect : string)
  : IO (EffectData * option error) :=
  let data := zeroEffectData in
  let body :=
    [("write", JPayload [("command", JString "request");
                         ("animName", JString effect)])] in
  r <- R_Put (nano e) body (endpoint e) ;;
  match r with
  | Failed err => ret (data, Some err)
  | Answered resp =>
    if StatusCode resp =? http.StatusUnauthorized then
      ret (data, Some ErrUnauthorized)
    else if StatusCode resp =? http.StatusNotFound then
      ret (data, Some ErrEffectNotFound)
    else if negb (StatusCode resp =? http.StatusOK) then
      ret (data, Some ErrUnexpectedResponse)
    else
      match json_Unmarshal (Body resp) data with
      | (data, Some err) =>
        Println err ;; ret (data, Some ErrParsingJSON)
      | (data, None) => ret (data, None)
      end
  end.

Definition GetAllEffectData (e : NanoEffects)
  : IO (slice EffectData * option error) :=
  let animations := {| Animations := None |} in
  let body := [("write", JPayload [("command", JString "requestAll")])] in
  r <- R_Put (nano e) body (endpoint e) ;;
  match r with
  | Failed err => ret (Animations animations, Some err)
  | Answered resp =>
    if StatusCode resp =? http.StatusUnauthorized then
      ret (Animations animations, Some ErrUnauthorized)
    else if StatusCode resp =? http.StatusNotFound then
      ret (Animations animations, Some ErrEffectNotFound)
    else if negb (StatusCode resp =? http.StatusOK) then
      ret (Animations animations, Some ErrUnexpectedResponse)
    else
      match json_Unmarshal (Body resp) animations with
      | (animations, Some err) =>
        Println err ;; ret (Animations animations, Some ErrParsingJSON)
      | (animations, None) => ret (Animations animations, None)
      end
  end.

Definition RenameEffect (e : NanoEffects) (animName newName : string)
  : IO (option error) :=
  let body :=
    [("write", JPayload [("command", JString "rename");
                         ("animName", JString animName);
                         ("newName", JString newName)])] in
  r <- R_Put (nano e) body (endpoint e) ;;
  match r with
  | Failed err => ret (Some err)
  | Answered resp =>
    if StatusCode resp =? http.StatusUnauthorized then
      ret (Some ErrUnauthorized)
    else if StatusCode resp =? http.StatusNotFound then
      ret (Some ErrEffectNotFound)
    else if negb (StatusCode resp =? http.StatusNoContent) then
      ret (Some ErrUnexpectedResponse)
    else ret None
  end.

Definition AddEffect (e : NanoEffects) (data : EffectData)
    (animName : string) : IO (option error) :=
  let data := setCommand "add" data in
  let data := setName animName data in
  let body := [("write", JEffectData data)] in
  r <- R_Put (nano e) body (endpoint e) ;;
  match r with
  | Failed err => ret (Some err)
  | Answered resp =>
    if StatusCode resp =? http.StatusUnauthorized then
      ret (Some ErrUnauthorized)
    else if StatusCode resp =? http.StatusNotFound then
      ret (Some ErrEffectNotFound)
    else if negb (StatusCode resp =? http.StatusNoContent) then
      ret (Some ErrUnexpectedResponse)
    else ret None
  end.

Definition DeleteEffect (e : NanoEffects) (animName : string)
  : IO (option error) :=
  let body :=
    [("write", JPayload [("command", JString "delete");
                         ("animName", JString animName)])] in
  r <- R_Put (nano e) body (endpoint e) ;;
  match r with
  | Failed err => ret (Some err)
  | Answered resp =>
    if StatusCode resp =? http.StatusUnauthorized then
      ret (Some ErrUnauthorized)
    else if StatusCode resp =? http.StatusNotFound then
      ret (Some ErrEffectNotFound)
    else if negb (StatusCode resp =? http.StatusNoContent) then
      ret (Some ErrUnexpectedResponse)
    else ret None
  end.

Definition WriteRaw (e : NanoEffects) (body : jsonPayload)
  : IO (option error) :=
  r <- R_Put (nano e) body (endpoint e) ;;
  match r with
  | Failed err => ret (Some err)
  | Answered resp =>
    if StatusCode resp =? http.StatusUnauthorized then
      ret (Some ErrUnauthorized)
    else if negb (StatusCode resp =? http.StatusNoContent) then
      ret (Some ErrUnexpectedResponse)
    else ret None
  end.

Definition Display (e : NanoEffects) (data : string) (loop : bool)
  : IO (option error) :=
  let body :=
    [("write", JPayload [("command", JString "display");
                         ("animType", JString "custom");
                         ("colorType", JString "RGB");
                         ("animData", JString data);
                         ("loop", JBool loop)])] in
  WriteRaw e body.

Definition DisplayTemp (e : NanoEffects) (animName : string)
    (duration : Z) : IO (option error) :=
  let body :=
    [("write", JPayload [("command", JString "displayTemp");
                         ("duration", JInt duration);
                         ("animName", JString animName)])] in
  WriteRaw e body.

Definition ToString (e : NanoEffects) (effect : StreamEffect) : string :=
  let data := fmt.d (len (Panels effect)) in
  fold_left
    (fun data panel =>
       let data :=
         (data ++ " " ++ fmt.d (ID panel) ++ " "
               ++ fmt.d (len (Frames panel)))%string in
       fold_left
         (fun data frame =>
            (data ++ " " ++ fmt.d (Red frame) ++ " "
                  ++ fmt.d (Green frame) ++ " " ++ fmt.d (Blue frame)
                  ++ " 0 " ++ fmt.d (Transition frame))%string)
         (Frames panel) data)
    (Panels effect) data.

End Effects.

(** ** Calls: the eleven methods behind one entry point *)

(** A method together with its arguments. *)
Inductive Call :=
| CallList
| CallSet (name : string)
| CallGet
| CallGetEffectData (effect : string)
| CallGetAllEffectData
| CallRenameEffect (animName newName : string)
| CallAddEffect (data : EffectData) (animName : string)
| CallDeleteEffect (animName : string)
| CallWriteRaw (body : jsonPayload)
| CallDisplay (data : string) (loop : bool)
| CallDisplayTemp (animName : string) (duration : Z).

(** The value a method returns next to its error. *)
Inductive Value :=
| Names (effects : slice string)
| Active (effect : string)
| OneEffect (data : EffectData)
| AllEffects (animations : slice EffectData)
| NoValue.

Section Invoke.

Context {UnmarshalNames : Unmarshal (slice string)}
        {UnmarshalName : Unmarshal string}
        {UnmarshalData : Unmarshal EffectData}
        {UnmarshalAll : Unmarshal animationsDoc}.

Definition invoke (c : Call) (e : NanoEffects) : IO (Value * option error) :=
  match c with
  | CallList => r <- List e ;; ret (Names (fst r), snd r)
  | CallSet name => err <- Set_ e name ;; ret (NoValue, err)
  | CallGet => r <- Get e ;; ret (Active (fst r), snd r)
  | CallGetEffectData effect =>
    r <- GetEffectData e effect ;; ret (OneEffect (fst r), snd r)
  | CallGetAllEffectData =>
    r <- GetAllEffectData e ;; ret (AllEffects (fst r), snd r)
  | CallRenameEffect animName newName =>
    err <- RenameEffect e animName newName ;; ret (NoValue, err)
  | CallAddEffect data animName =>
    err <- AddEffect e data animName ;; ret (NoValue, err)
  | CallDeleteEffect animName =>
    err <- DeleteEffect e animName ;; ret (NoValue, err)
  | CallWriteRaw body => err <- WriteRaw e body ;; ret (NoValue, err)
  | CallDisplay data loop => err <- Display e data loop ;; ret (NoValue, err)
  | CallDisplayTemp animName duration =>
    err <- DisplayTemp e animName duration ;; ret (NoValue, err)
  end.

(** The error [json.Unmarshal] reports when a call hands it [body]: each
    decoding method starts from the zero value of its target. *)
Definition decodeError (c : Call) (body : list Byte.byte) : option string :=
  match c with
  | CallList => snd (json_Unmarshal body (None : slice string))
  | CallGet => snd (json_Unmarshal body "")
  | CallGetEffectData _ => snd (json_Unmarshal body zeroEffectData)
  | CallGetAllEffectData =>
    snd (json_Unmarshal body {| Animations := None |})
  | _ => None
  end.

End Invoke.

(** The error and the value of a finished call, and the world it leaves. *)
Definition errorOf {A} (r : A * option error * World) : option error :=
  snd (fst r).

Definition valueOf {A} (r : A * option error * World) : A := fst (fst r).

Definition worldOf {A} (r : A * World) : World := snd r.

(** Between [w] and [w'] exactly one exchange took place: request [q],
    answered by [a]. *)
Definition exchanged (w w' : World) (q : Request) (a : Reply) : Prop :=
  wire w' = (wire w ++ [(q, a)])%list.

(** The methods that return a decoded body. *)
Definition returnsBody (c : Call) : bool :=
  match c with
  | CallList | CallGet | CallGetEffectData _ | CallGetAllEffectData => true
  | _ => false
  end.

(** The methods with a [http.StatusNotFound] test of their own. *)
Definition checksNotFound (c : Call) : bool :=
  match c with
  | CallSet _ | CallGetEffectData _ | CallGetAllEffectData
  | CallRenameEffect _ _ | CallAddEffect _ _ | CallDeleteEffect _ => true
  | CallList | CallGet | CallWriteRaw _ | CallDisplay _ _
  | CallDisplayTemp _ _ => false
  end.

(** Two effect definitions that agree on every field but [Command] and
    [Name]. *)
Definition sameDefinition (a b : EffectData) : Prop :=
  Loop a = Loop b /\ Type_ a = Type_ b /\ Version a = Version b /\
  Data a = Data b /\ ColorType a = ColorType b /\ Palette a = Palette b /\
  PluginType a = PluginType b /\ PluginUuid a = PluginUuid b /\
  PluginOptions a = PluginOptions b /\
  OverlayPalette a = OverlayPalette b /\
  OverlayColorType a = OverlayColorType b /\
  HasOverlay a = HasOverlay b /\
  LogicalPanelsEnabled a = LogicalPanelsEnabled b.

(** ** The display payloads as the interface describes them *)

Module Described.

(** [{"write": {"command": "display", "animType": "custom",
    "colorType": "RGB", "animData": data, "loop": loop}}] *)
Definition displayPayload (data : string) (loop : bool) : jsonPayload :=
  [("write", JPayload [("command", JString "display");
                       ("animType", JString "custom");
                       ("colorType", JString "RGB");
                       ("animData", JString data);
                       ("loop", JBool loop)])].

(** [{"write": {"command": "displayTemp", "duration": duration,
    "animName": name}}] *)
Definition displayTempPayload (name : string) (duration : Z)
  : jsonPayload :=
  [("write", JPayload [("command", JString "displayTemp");
                       ("duration", JInt duration);
                       ("animName", JString name)])].

(** The error [WriteRaw] derives from a reply: the client's own error,
    [ErrUnauthorized] on 401, nothing on 204, [ErrUnexpectedResponse]
    on any other status. *)
Definition rawWriteError (a : Reply) : option error :=
  match a with
  | Failed err => Some err
  | Answered resp =>
    if StatusCode resp =? 401 then Some ErrUnauthorized
    else if StatusCode resp =? 204 then None
    else Some ErrUnexpectedResponse
  end.

End Described.

(** ** The streaming grammar, read back

    [<panelCount> { <panelID> <frameCount> { <R> <G> <B> 0 <transitionTime> } }]:
    integers separated by single spaces, nothing after the last one.  The
    reader follows the grammar, not [ToString]: it keeps every integer it
    meets, the two counts and the literal [0] included. *)

Module Grammar.

Record frame := {
  red : Z;
  green : Z;
  blue : Z;
  reserved : Z;
  transitionTime : Z
}.

Record panel := {
  panelID : Z;
  frameCount : Z;
  frames : list frame
}.

Record animation := {
  panelCount : Z;
  panels : list panel
}.

(** The fields of a line, split at every space. *)
Fixpoint fields (s : string) : list string :=
  match s with
  | EmptyString => [EmptyString]
  | String c s' =>
    if Ascii.eqb c " " then EmptyString :: fields s'
    else match fields s' with
         | [] => [String c EmptyString]
         | f :: fs => String c f :: fs
         end
  end.

(** A decimal integer, with an optional leading [-]. *)
Definition integer (s : string) : option Z :=
  option_map Z.of_int (NilZero.int_of_string s).

Fixpoint integers (fs : list string) : option (list Z) :=
  match fs with
  | [] => Some []
  | f :: fs' =>
    match integer f, integers fs' with
    | Some n, Some ns => Some (n :: ns)
    | _, _ => None
    end
  end.

(** [n] frames: five integers each, the fourth the literal [0]. *)
Fixpoint readFrames (n : nat) (ns : list Z) : option (list frame * list Z) :=
  match n with
  | O => Some ([], ns)
  | S n' =>
    match ns with
    | r :: g :: b :: z :: t :: rest =>
      if z =? 0 then
        match readFrames n' rest with
        | Some (fs, rest') =>
          Some ({| red := r; green := g; blue := b; reserved := z;
                   transitionTime := t |} :: fs, rest')
        | None => None
        end
      else None
    | _ => None
    end
  end.

(** [n] panels: an id, a frame count, then that many frames. *)
Fixpoint readPanels (n : nat) (ns : list Z) : option (list panel * list Z) :=
  match n with
  | O => Some ([], ns)
  | S n' =>
    match ns with
    | id :: count :: rest =>
      if count <? 0 then None
      else
        match readFrames (Z.to_nat count) rest with
        | Some (fs, rest') =>
          match readPanels n' rest' with
          | Some (ps, rest'') =>
            Some ({| panelID := id; frameCount := count; frames := fs |}
                    :: ps, rest'')
          | None => None
          end
        | None => None
        end
    | _ => None
    end
  end.

(** The panel count, then that many panels, then the end of input. *)
Definition read (ns : list Z) : option animation :=
  match ns with
  | count :: rest =>
    if count <? 0 then None
    else
      match readPanels (Z.to_nat count) rest with
      | Some (ps, []) => Some {| panelCount := count; panels := ps |}
      | _ => None
      end
  | [] => None
  end.

Definition parse (s : string) : option animation :=
  match integers (fields s) with
  | Some ns => read ns
  | None => None
  end.

(** What a reader is expected to find in the encoding of [effect]: its
    panels and frames in their order, with the counts and the literal. *)
Definition ofFrame (f : StreamFrame) : frame := {|
  red := Red f; green := Green f; blue := Blue f; reserved := 0;
  transitionTime := Transition f
|}.

Definition ofPanel (p : StreamPanel) : panel := {|
  panelID := ID p;
  frameCount := len (Frames p);
  frames := map ofFrame (Frames p)
|}.

Definition ofEffect (effect : StreamEffect) : animation := {|
  panelCount := len (Panels effect);
  panels := map ofPanel (Panels effect)
|}.

(** Back from what was read to a stream effect. *)
Definition toFrame (f : frame) : StreamFrame := {|
  Red := red f; Green := green f; Blue := blue f;
  Transition := transitionTime f
|}.

Definition toPanel (p : panel) : StreamPanel := {|
  ID := panelID p;
  Frames := map toFrame (frames p)
|}.

Definition toEffect (a : animation) : StreamEffect := {|
  Panels := map toPanel (panels a)
|}.

(** The integers of an animation in the order of the grammar. *)
Definition frameNumbers (f : frame) : list Z :=
  [red f; green f; blue f; reserved f; transitionTime f].

Definition panelNumbers (p : panel) : list Z :=
  panelID p :: frameCount p :: flat_map frameNumbers (frames p).

Definition numbers (a : animation) : list Z :=
  panelCount a :: flat_map panelNumbers (panels a).

(** Fields written one after the other, each behind a single space. *)
Fixpoint spaced (fs : list string) : string :=
  match fs with
  | [] => EmptyString
  | f :: fs' => (" " ++ f ++ spaced fs')%string
  end.

Definition noSpace (s : string) : Prop :=
  forall c, In c (list_ascii_of_string s) -> c <> " "%char.

End Grammar.

(** ** Devices and decoders to run the methods against *)

Module Fixture.

(** A device that answers every request with one status and body. *)
Definition device (status : Z) (body : list Byte.byte) : NanoEffects :=
  newNanoEffects {|
    url := "http://192.168.0.10:16021/api/v1";
    token := "t0k3n";
    client := fun _ => Answered {| StatusCode := status; Body := body |}
  |}.

Definition start : World := {| wire := []; stdout := [] |}.

(** A body that is not the JSON any method expects. *)
Definition plain : list Byte.byte := list_byte_of_string "Not Found".

Definition answer (status : Z) : Response :=
  {| StatusCode := status; Body := plain |}.

(** A decoder that rejects every body and leaves its target alone. *)
Definition rejecting (T : Type) : Unmarshal T := {|
  json_Unmarshal := fun _ v => (v, Some "unexpected end of JSON input")
|}.

(** A decoder that accepts every body and leaves its target alone. *)
Definition lenient (T : Type) : Unmarshal T := {|
  json_Unmarshal := fun _ v => (v, None)
|}.

(** The two requests the methods build for this device. *)
Definition getting (path : string) : Request := {|
  method := GET;
  target := ("http://192.168.0.10:16021/api/v1/t0k3n/effects" ++ path)%string;
  header := [];
  payload := None
|}.

Definition putting (body : jsonPayload) : Request := {|
  method := PUT;
  target := "http://192.168.0.10:16021/api/v1/t0k3n/effects";
  header := [("Content-Type", "application/json")];
  payload := Some body
|}.

Definition frame (r g b t : Z) : StreamFrame :=
  {| Red := r; Green := g; Blue := b; Transition := t |}.

(** Panel 1 with one frame, panel 2 with two. *)
Definition twoPanels : StreamEffect := {|
  Panels := [ {| ID := 1; Frames := [frame 255 0 0 5] |};
              {| ID := 2; Frames := [frame 0 255 0 3; frame 0 0 255 7] |} ]
|}.

(** An effect definition that already names a command and an effect. *)
Definition stale : EffectData :=
  setName "Old" (setCommand "delete" zeroEffectData).

End Fixture.

(** ** The wire protocol of a call, read off the methods *)

(** The HTTP verb of a call: [List] and [Get] read, every other method
    writes. *)
Definition verbOf (c : Call) : Method :=
  match c with
  | CallList | CallGet => GET
  | _ => PUT
  end.

(** What a call appends to the endpoint. *)
Definition pathOf (c : Call) : string :=
  match c with
  | CallList => "/effectsList"
  | CallGet => "/select"
  | _ => ""
  end.

(** The headers a call sets. *)
Definition headersOf (c : Call) : list (string * string) :=
  match c with
  | CallList | CallGet => []
  | _ => [("Content-Type", "application/json")]
  end.

(** The status a call takes for success. *)
Definition expectedStatus (c : Call) : Z :=
  if returnsBody c then http.StatusOK else http.StatusNoContent.

(** The value each method returns on its status and transport error
    paths: the zero value of its result type. *)
Definition zeroValue (c : Call) : Value :=
  match c with
  | CallList => Names None
  | CallGet => Active ""
  | CallGetEffectData _ => OneEffect zeroEffectData
  | CallGetAllEffectData => AllEffects None
  | _ => NoValue
  end.

(** The two methods that print the decoder's error. *)
Definition printsDecodeError (c : Call) : bool :=
  match c with
  | CallGetEffectData _ | CallGetAllEffectData => true
  | _ => false
  end.

(** [m[k]] on a payload. *)
Fixpoint lookup (k : string) (m : jsonPayload) : option jsonValue :=
  match m with
  | [] => None
  | (k', v) :: m' => if String.eqb k k' then Some v else lookup k m'
  end.

(** The ["command"] a written value carries once marshalled: the key of a
    nested payload, or the [Command] field of an [EffectData], which its
    [omitempty] tag leaves out when empty. *)
Definition commandOf (v : jsonValue) : option string :=
  match v with
  | JPayload m =>
    match lookup "command" m with
    | Some (JString s) => Some s
    | _ => None
    end
  | JEffectData x =>
    if String.eqb (Command x) "" then None else Some (Command x)
  | _ => None
  end.

(** The command tag of each typed write method. *)
Definition tagOf (c : Call) : option string :=
  match c with
  | CallGetEffectData _ => Some "request"
  | CallGetAllEffectData => Some "requestAll"
  | CallRenameEffect _ _ => Some "rename"
  | CallAddEffect _ _ => Some "add"
  | CallDeleteEffect _ => Some "delete"
  | CallDisplay _ _ => Some "display"
  | CallDisplayTemp _ _ => Some "displayTemp"
  | _ => None
  end.

(** The frames of an animation, all panels together. *)
Definition frameTotal (effect : StreamEffect) : nat :=
  list_sum (map (fun p => List.length (Frames p)) (Panels effect)).

Section Verdict.

Context {UnmarshalNames : Unmarshal (slice string)}
        {UnmarshalName : Unmarshal string}
        {UnmarshalData : Unmarshal EffectData}
        {UnmarshalAll : Unmarshal animationsDoc}.

(** The error of a call as one table over the response: 401 first, 404
    where the method tests for it, then the success status, then the
    decoder. *)
Definition verdict (c : Call) (resp : Response) : option error :=
  if StatusCode resp =? 401 then Some ErrUnauthorized
  else if checksNotFound c && (StatusCode resp =? 404) then
    Some ErrEffectNotFound
  else if negb (StatusCode resp =? expectedStatus c) then
    Some ErrUnexpectedResponse
  else
    match decodeError c (Body resp) with
    | Some _ => Some ErrParsingJSON
    | None => None
    end.

(** The lines a call prints on a response: the decoder's message, from
    the two printing methods, on a 200 response the decoder rejects. *)
Definition printed (c : Call) (resp : Response) : list string :=
  if printsDecodeError c && (StatusCode resp =? 200) then
    match decodeError c (Body resp) with
    | Some msg => [msg]
    | None => []
    end
  else [].

(** What the decoder leaves in a call's target, started at its zero
    value. *)
Definition decoded (c : Call) (body : list Byte.byte) : Value :=
  match c with
  | CallList => Names (fst (json_Unmarshal body (None : slice string)))
  | CallGet => Active (fst (json_Unmarshal body ""))
  | CallGetEffectData _ =>
    OneEffect (fst (json_Unmarshal body zeroEffectData))
  | CallGetAllEffectData =>
    AllEffects
      (Animations (fst (json_Unmarshal body {| Animations := None |})))
  | _ => NoValue
  end.

End Verdict.

(** More devices and decoders. *)
Module Bench.

(** A device that cannot be reached. *)
Definition unreachable : NanoEffects :=
  newNanoEffects {|
    url := "http://192.168.0.10:16021/api/v1";
    token := "t0k3n";
    client := fun _ => Failed (ErrTransport "dial tcp: i/o timeout")
  |}.

(** A decoder that fills in the name it has read so far, then fails. *)
Definition halfway : Unmarshal EffectData := {|
  json_Unmarshal := fun _ v => (setName "Flo" v, Some "unexpected end of JSON input")
|}.

(** A device description for [newNanoEffects]. *)
Definition panel : Nanoleaf := {|
  url := "http://192.168.0.10:16021/api/v1";
  token := "t0k3n";
  client := fun _ => Answered {| StatusCode := 204; Body := [] |}
|}.

End Bench.

(** * Properties *)

(** ** The encoder *)

Section Encoder.

Variable e : NanoEffects.

Lemma append_assoc (a b c : string) :
  ((a ++ b) ++ c = a ++ (b ++ c))%string.
Proof.
  induction a as [|x a IH]; simpl; [reflexivity | now rewrite IH].
Qed.

Lemma append_empty_r (a : string) : (a ++ "")%string = a.
Proof.
  induction a as [|x a IH]; simpl; [reflexivity | now rewrite IH].
Qed.

Lemma spaced_app (fs gs : list string) :
  Grammar.spaced (fs ++ gs) = (Grammar.spaced fs ++ Grammar.spaced gs)%string.
Proof.
  induction fs as [|f fs IH]; simpl; [reflexivity |].
  now rewrite IH, append_assoc.
Qed.

(** The inner loop appends the five fields of every frame. *)
Lemma frames_loop (fs : list StreamFrame) (data : string) :
  fold_left
    (fun data frame =>
       (data ++ " " ++ fmt.d (Red frame) ++ " "
             ++ fmt.d (Green frame) ++ " " ++ fmt.d (Blue frame)
             ++ " 0 " ++ fmt.d (Transition frame))%string)
    fs data
  = (data ++ Grammar.spaced
       (map fmt.d (flat_map Grammar.frameNumbers (map Grammar.ofFrame fs))))%string.
Proof.
  revert data. induction fs as [|f fs IH]; intros data; simpl fold_left.
  - simpl. now rewrite append_empty_r.
  - rewrite IH. cbn [map flat_map]. rewrite map_app, spaced_app.
    cbn [Grammar.frameNumbers Grammar.ofFrame map Grammar.spaced
         Grammar.red Grammar.green Grammar.blue Grammar.reserved
         Grammar.transitionTime].
    change (fmt.d 0) with "0".
    repeat (rewrite append_assoc; simpl). reflexivity.
Qed.

(** The outer loop appends, for every panel, its id, its frame count and
    its frames. *)
Lemma panels_loop (ps : list StreamPanel) (data : string) :
  fold_left
    (fun data panel =>
       let data :=
         (data ++ " " ++ fmt.d (ID panel) ++ " "
               ++ fmt.d (len (Frames panel)))%string in
       fold_left
         (fun data frame =>
            (data ++ " " ++ fmt.d (Red frame) ++ " "
                  ++ fmt.d (Green frame) ++ " " ++ fmt.d (Blue frame)
                  ++ " 0 " ++ fmt.d (Transition frame))%string)
         (Frames panel) data)
    ps data
  = (data ++ Grammar.spaced
       (map fmt.d (flat_map Grammar.panelNumbers (map Grammar.ofPanel ps))))%string.
Proof.
  revert data. induction ps as [|p ps IH]; intros data; simpl fold_left.
  - simpl. now rewrite append_empty_r.
  - rewrite IH, frames_loop. cbn [map flat_map].
    rewrite map_app, spaced_app.
    cbn [Grammar.panelNumbers Grammar.ofPanel map Grammar.spaced
         Grammar.panelID Grammar.frameCount Grammar.frames].
    repeat (rewrite append_assoc; simpl). reflexivity.
Qed.

(** [ToString] writes the integers of the grammar, a space between any
    two of them. *)
Lemma ToString_numbers (effect : StreamEffect) :
  ToString e effect
  = (fmt.d (len (Panels effect))
     ++ Grammar.spaced
          (map fmt.d
             (flat_map Grammar.panelNumbers
                (map Grammar.ofPanel (Panels effect)))))%string.
Proof. unfold ToString. apply panels_loop. Qed.

End Encoder.

(** ** Reading the encoding back *)

Section Reader.

Import Grammar.

Lemma noSpace_cons (c : ascii) (s : string) :
  noSpace (String c s) -> c <> " "%char /\ noSpace s.
Proof.
  intros H. split.
  - apply H. simpl. now left.
  - intros x Hx. apply H. simpl. now right.
Qed.

(** Splitting at spaces undoes writing fields behind single spaces. *)
Lemma fields_spaced (fs : list string) :
  Forall noSpace fs ->
  forall f, noSpace f -> fields (f ++ spaced fs) = f :: fs.
Proof.
  induction 1 as [|g gs Hg Hgs IH].
  - induction f as [|c f IHf]; intros Hf; simpl; [reflexivity |].
    apply noSpace_cons in Hf as [Hc Hf].
    destruct (Ascii.eqb_spec c " "); [contradiction |].
    simpl in IHf. now rewrite (IHf Hf).
  - induction f as [|c f IHf]; intros Hf.
    + simpl. now rewrite (IH g Hg).
    + apply noSpace_cons in Hf as [Hc Hf].
      change (fields (String c (f ++ spaced (g :: gs))) = String c f :: g :: gs).
      cbn [fields]. destruct (Ascii.eqb_spec c " "); [contradiction |].
      now rewrite (IHf Hf).
Qed.

Lemma noSpace_digits (u : Decimal.uint) :
  noSpace (NilEmpty.string_of_uint u).
Proof.
  induction u; intros c Hc; simpl in Hc;
    try contradiction;
    (destruct Hc as [<- | Hc]; [discriminate | now apply IHu]).
Qed.

Lemma noSpace_uint (u : Decimal.uint) :
  noSpace (NilZero.string_of_uint u).
Proof.
  destruct u; try apply noSpace_digits.
  intros c [<- | []]. discriminate.
Qed.

(** [%d] never prints a space. *)
Lemma noSpace_d (n : Z) : noSpace (fmt.d n).
Proof.
  unfold fmt.d. destruct (Z.to_int n) as [u | u]; simpl.
  - apply noSpace_uint.
  - intros c [<- | Hc]; [discriminate | now apply noSpace_uint in Hc].
Qed.

(** What [%d] prints reads back as the same integer. *)
Lemma integer_d (n : Z) : integer (fmt.d n) = Some n.
Proof.
  unfold integer, fmt.d. rewrite NilZero.isi.
  - simpl. now rewrite DecimalZ.of_to.
  - destruct n; simpl; try discriminate.
    intros [= H]. now apply (Unsigned.to_uint_nonnil p).
  - destruct n; simpl; try discriminate.
    intros [= H]. now apply (Unsigned.to_uint_nonnil p).
Qed.

Lemma integers_d (ns : list Z) : integers (map fmt.d ns) = Some ns.
Proof.
  induction ns as [|n ns IH]; simpl; [reflexivity |].
  now rewrite integer_d, IH.
Qed.

Lemma Forall_noSpace_d (ns : list Z) : Forall noSpace (map fmt.d ns).
Proof.
  induction ns; simpl; constructor; auto using noSpace_d.
Qed.

Lemma to_nat_len {A} (l : list A) : Z.to_nat (len l) = List.length l.
Proof. unfold len. apply Nat2Z.id. Qed.

Lemma len_nonneg {A} (l : list A) : (len l <? 0) = false.
Proof. unfold len. apply Z.ltb_ge. lia. Qed.

Lemma readFrames_numbers (fs : list StreamFrame) (rest : list Z) :
  readFrames (List.length fs)
    (flat_map frameNumbers (map ofFrame fs) ++ rest)
  = Some (map ofFrame fs, rest).
Proof.
  induction fs as [|f fs IH]; simpl; [reflexivity |].
  now rewrite IH.
Qed.

Lemma readPanels_numbers (ps : list StreamPanel) (rest : list Z) :
  readPanels (List.length ps)
    (flat_map panelNumbers (map ofPanel ps) ++ rest)
  = Some (map ofPanel ps, rest).
Proof.
  induction ps as [|p ps IH]; [reflexivity |].
  cbn [List.length map flat_map panelNumbers ofPanel panelID frameCount
       frames readPanels app].
  rewrite len_nonneg, to_nat_len, <- app_assoc.
  rewrite readFrames_numbers, IH. reflexivity.
Qed.

Lemma read_numbers (effect : StreamEffect) :
  read (numbers (ofEffect effect)) = Some (ofEffect effect).
Proof.
  unfold read, numbers, ofEffect; cbn [panelCount panels].
  rewrite len_nonneg, to_nat_len.
  rewrite <- (app_nil_r (flat_map _ _)), readPanels_numbers.
  reflexivity.
Qed.

Lemma toEffect_ofEffect (effect : StreamEffect) :
  toEffect (ofEffect effect) = effect.
Proof.
  destruct effect as [ps]. unfold toEffect, ofEffect; cbn [panels Panels].
  f_equal. rewrite map_map.
  rewrite <- (map_id ps) at 2. apply map_ext. intros [id fs].
  unfold toPanel, ofPanel; cbn [panelID frames ID Frames]. f_equal.
  rewrite map_map. rewrite <- (map_id fs) at 2. apply map_ext.
  now intros [].
Qed.

End Reader.

(** C2. Encoding panel 1 with the frame (255, 0, 0, transition 5) and
    panel 2 with the frames (0, 255, 0, transition 3) and (0, 0, 255,
    transition 7) gives exactly
    ["2 1 1 255 0 0 0 5 2 2 0 255 0 0 3 0 0 255 0 7"]. *)
Theorem ToString_two_panels (e : NanoEffects) :
  ToString e
    {| Panels :=
         [ {| ID := 1;
              Frames := [ {| Red := 255; Green := 0; Blue := 0;
                             Transition := 5 |} ] |};
           {| ID := 2;
              Frames := [ {| Red := 0; Green := 255; Blue := 0;
                             Transition := 3 |};
                          {| Red := 0; Green := 0; Blue := 255;
                             Transition := 7 |} ] |} ] |}
  = "2 1 1 255 0 0 0 5 2 2 0 255 0 0 3 0 0 255 0 7".
Proof. reflexivity. Qed.

(** C8. Encoding an animation without panels gives exactly ["0"]: one
    character, nothing after it. *)
Theorem ToString_no_panels (e : NanoEffects) :
  ToString e {| Panels := [] |} = "0"
  /\ String.length (ToString e {| Panels := [] |}) = 1%nat.
Proof. split; reflexivity. Qed.

(** C5. For every animation, reading [ToString]'s output by the grammar
    [<panelCount> { <panelID> <frameCount> { <R> <G> <B> 0 <transitionTime> } }]
    succeeds and finds the panel count, every panel's id and frame count,
    and every frame's red, green, blue, literal 0 and transition time, in
    the order of the animation; the animation is rebuilt from what was
    read. *)
Theorem ToString_round_trip (e : NanoEffects) (effect : StreamEffect) :
  Grammar.parse (ToString e effect) = Some (Grammar.ofEffect effect)
  /\ Grammar.toEffect (Grammar.ofEffect effect) = effect.
Proof.
  split; [| apply toEffect_ofEffect].
  unfold Grammar.parse. rewrite ToString_numbers.
  rewrite fields_spaced by auto using Forall_noSpace_d, noSpace_d.
  change (fmt.d (len (Panels effect))
            :: map fmt.d
                 (flat_map Grammar.panelNumbers
                    (map Grammar.ofPanel (Panels effect))))
    with (map fmt.d (Grammar.numbers (Grammar.ofEffect effect))).
  rewrite integers_d. apply read_numbers.
Qed.

(** ** Status mapping *)

(** Unfolds a call down to the client's reply. *)
Ltac run :=
  unfold errorOf, valueOf, worldOf, exchanged, invoke, List, Set_, Get,
    GetEffectData, GetAllEffectData, RenameEffect, AddEffect, DeleteEffect,
    Display, DisplayTemp, WriteRaw, R_Get, R_Put, Println, send, bind, ret;
  cbn beta iota zeta delta [fst snd wire stdout].

(** Case analysis, in the goal, on every test the call makes: the reply,
    the status tests in their order, the decoder's verdict. *)
Ltac branches :=
  repeat (match goal with
          | |- context [match client ?n ?q with _ => _ end] =>
            destruct (client n q) eqn:?
          | |- context [if ?b then _ else _] => destruct b eqn:?
          | |- context [@json_Unmarshal ?T ?U ?b ?v] =>
            destruct (@json_Unmarshal T U b v) as [? [?|]] eqn:?
          end;
          cbn beta iota zeta delta [fst snd wire stdout]).

(** The reply named by an [exchanged] hypothesis is the one the call got. *)
Ltac same_reply :=
  let H := fresh in
  intros H; apply app_inv_head in H; injection H as ? ?; subst.

(** Status tests as equations between integers. *)
Ltac status :=
  unfold http.StatusOK, http.StatusNoContent, http.StatusUnauthorized,
    http.StatusNotFound in *;
  repeat match goal with
  | H : negb _ = true |- _ => apply negb_true_iff in H
  | H : negb _ = false |- _ => apply negb_false_iff in H
  | H : (_ =? _) = true |- _ => apply Z.eqb_eq in H
  | H : (_ =? _) = false |- _ => apply Z.eqb_neq in H
  end.

(** The request a call hands to the client, and the exchange it makes:
    proves the first part of [exists q, exchanged ... /\ ...]. *)
Ltac sends :=
  run;
  match goal with
  | |- context [client ?n ?q] => exists q
  end;
  split;
  [ match goal with
    | |- context [client ?n ?q] => destruct (client n q)
    end;
    branches; reflexivity
  | ].

(** Takes the client's reply from the hypothesis and follows the call. *)
Ltac replied :=
  match goal with
  | H : client _ _ = _ |- _ => rewrite H
  end;
  cbn beta iota zeta delta [fst snd wire stdout];
  branches.

Section Facade.

Context {UnmarshalNames : Unmarshal (slice string)}
        {UnmarshalName : Unmarshal string}
        {UnmarshalData : Unmarshal EffectData}
        {UnmarshalAll : Unmarshal animationsDoc}.

(** Every call makes exactly one exchange with the device. *)
Lemma invoke_exchanged (c : Call) (e : NanoEffects) (w : World) :
  exists q, exchanged w (worldOf (invoke c e w)) q (client (nano e) q).
Proof.
  destruct c; run;
    match goal with
    | |- context [client ?n ?q] => exists q; destruct (client n q)
    end;
    branches; reflexivity.
Qed.

(** C4. Every call hands one request to the client, and whenever the
    client's reply to it is a response with status 401, whatever its
    body, the call returns [ErrUnauthorized]: no other status test and no
    decoding comes before that test. *)
Theorem unauthorized_first (c : Call) (e : NanoEffects) (w : World) :
  exists q : Request,
    exchanged w (worldOf (invoke c e w)) q (client (nano e) q)
    /\ forall resp : Response,
         client (nano e) q = Answered resp ->
         StatusCode resp = 401 ->
         errorOf (invoke c e w) = Some ErrUnauthorized.
Proof.
  destruct c; sends; intros resp Hr Hs; replied; status;
    solve [reflexivity | discriminate | congruence].
Qed.

(** C1, as the code has it. Every call hands one request to the client,
    and whenever the client's reply to it is a response with status 404,
    [Set], [GetEffectData], [GetAllEffectData], [RenameEffect],
    [AddEffect] and [DeleteEffect] return [ErrEffectNotFound]; [List],
    [Get], [WriteRaw], [Display] and [DisplayTemp] have no test for 404
    and return [ErrUnexpectedResponse]. *)
Theorem not_found_mapping (c : Call) (e : NanoEffects) (w : World) :
  exists q : Request,
    exchanged w (worldOf (invoke c e w)) q (client (nano e) q)
    /\ forall resp : Response,
         client (nano e) q = Answered resp ->
         StatusCode resp = 404 ->
         errorOf (invoke c e w)
         = Some (if checksNotFound c then ErrEffectNotFound
                 else ErrUnexpectedResponse).
Proof.
  destruct c; cbn [checksNotFound]; sends; intros resp Hr Hs; replied;
    status; solve [reflexivity | discriminate | congruence].
Qed.


(** C7. Every call hands one request to the client, and whenever the
    client's reply to it is a 200 response whose body [json.Unmarshal]
    rejects for that call, the call returns [ErrParsingJSON] and no
    other error, and so never a value next to a nil error. *)
Theorem decode_failure (c : Call) (e : NanoEffects) (w : World) :
  exists q : Request,
    exchanged w (worldOf (invoke c e w)) q (client (nano e) q)
    /\ forall (resp : Response) (msg : string),
         client (nano e) q = Answered resp ->
         StatusCode resp = 200 ->
         decodeError c (Body resp) = Some msg ->
         errorOf (invoke c e w) = Some ErrParsingJSON.
Proof.
  destruct c; sends; intros resp msg Hr Hs Hd;
    try discriminate Hd; unfold decodeError in Hd;
    replied; status;
    try solve [reflexivity | discriminate | congruence];
    match goal with
    | H1 : json_Unmarshal ?b ?v = _, H2 : snd (json_Unmarshal ?b ?v) = _
      |- _ => rewrite H1 in H2; discriminate H2
    end.
Qed.

(** C10. When [List] returns an error its slice is [nil], and when [Get]
    returns an error its string is empty. *)
Theorem failure_returns_zero (e : NanoEffects) (w : World) (err : error) :
  (errorOf (List e w) = Some err -> valueOf (List e w) = None)
  /\ (errorOf (Get e w) = Some err -> valueOf (Get e w) = "").
Proof.
  split; run; branches; intros H; solve [reflexivity | discriminate H].
Qed.

(** C3. Whatever effect definition and name the caller gives,
    [AddEffect] sends one PUT to the endpoint whose body is
    [{"write": sent}], where [sent] has the command ["add"] and the
    given name, and agrees with the caller's definition on every other
    field. *)
Theorem AddEffect_forces_command_and_name (e : NanoEffects)
    (data : EffectData) (animName : string) (w : World) :
  exists sent : EffectData,
    (exists a : Reply,
       exchanged w (worldOf (AddEffect e data animName w))
         {| method := PUT; target := endpoint e;
            header := [("Content-Type", "application/json")];
            payload := Some [("write", JEffectData sent)] |} a)
    /\ Command sent = "add"
    /\ Name sent = animName
    /\ sameDefinition sent data.
Proof.
  exists (setName animName (setCommand "add" data)).
  split; [| unfold sameDefinition; cbn; intuition reflexivity].
  run.
  match goal with
  | |- context [client ?n ?q] => exists (client n q); destruct (client n q)
  end;
  branches; reflexivity.
Qed.

(** C9. [Display] is [WriteRaw] on the display payload and
    [DisplayTemp] is [WriteRaw] on the temporary-display payload: same
    result, same exchange.  For every reply, the error of each of the
    three is the one [WriteRaw]'s status tests give. *)
Theorem Display_is_WriteRaw (e : NanoEffects) (w : World) :
  (forall data loop,
      Display e data loop w
      = WriteRaw e (Described.displayPayload data loop) w)
  /\ (forall animName duration,
         DisplayTemp e animName duration w
         = WriteRaw e (Described.displayTempPayload animName duration) w)
  /\ (forall body,
         fst (WriteRaw e body w)
         = Described.rawWriteError
             (client (nano e)
                {| method := PUT; target := endpoint e;
                   header := [("Content-Type", "application/json")];
                   payload := Some body |})).
Proof.
  split; [reflexivity | split; [reflexivity |]].
  intros body. unfold Described.rawWriteError. run.
  destruct (client _ _); [| reflexivity].
  branches; status; solve [reflexivity | congruence].
Qed.

End Facade.

(** ** The theorems at work on a device *)

Section Witnesses.

#[local] Existing Instance Fixture.rejecting.

Lemma unauthorized_first_witness :
  let c := CallGetEffectData "Flow" in
  let e := Fixture.device 401 Fixture.plain in
  let q := Fixture.putting
             [("write", JPayload [("command", JString "request");
                                  ("animName", JString "Flow")])] in
  client (nano e) q = Answered (Fixture.answer 401)
  /\ StatusCode (Fixture.answer 401) = 401
  /\ errorOf (invoke c e Fixture.start) = Some ErrUnauthorized.
Proof.
  intros c e q.
  destruct (unauthorized_first c e Fixture.start) as [q' [_ H]].
  exact (conj eq_refl (conj eq_refl
           (H (Fixture.answer 401) eq_refl eq_refl))).
Defined.

Lemma not_found_mapping_witness :
  let c := CallDeleteEffect "Flow" in
  let e := Fixture.device 404 Fixture.plain in
  let q := Fixture.putting
             [("write", JPayload [("command", JString "delete");
                                  ("animName", JString "Flow")])] in
  client (nano e) q = Answered (Fixture.answer 404)
  /\ StatusCode (Fixture.answer 404) = 404
  /\ errorOf (invoke c e Fixture.start) = Some ErrEffectNotFound.
Proof.
  intros c e q.
  destruct (not_found_mapping c e Fixture.start) as [q' [_ H]].
  exact (conj eq_refl (conj eq_refl
           (H (Fixture.answer 404) eq_refl eq_refl))).
Defined.

(** C1 as stated fails on [List]: a 404 gives [ErrUnexpectedResponse]. *)
Lemma List_not_found_is_unexpected :
  let e := Fixture.device 404 Fixture.plain in
  exchanged Fixture.start (worldOf (List e Fixture.start))
    (Fixture.getting "/effectsList") (Answered (Fixture.answer 404))
  /\ StatusCode (Fixture.answer 404) = 404
  /\ errorOf (List e Fixture.start) = Some ErrUnexpectedResponse
  /\ errorOf (List e Fixture.start) <> Some ErrEffectNotFound.
Proof.
  intros e. split; [reflexivity |]. split; [reflexivity |].
  split; [reflexivity | intros H; vm_compute in H; discriminate H].
Qed.


Lemma decode_failure_witness :
  let c := CallList in
  let e := Fixture.device 200 Fixture.plain in
  client (nano e) (Fixture.getting "/effectsList")
  = Answered (Fixture.answer 200)
  /\ StatusCode (Fixture.answer 200) = 200
  /\ decodeError c (Body (Fixture.answer 200))
     = Some "unexpected end of JSON input"
  /\ errorOf (invoke c e Fixture.start) = Some ErrParsingJSON.
Proof.
  intros c e.
  destruct (decode_failure c e Fixture.start) as [q' [_ H]].
  exact (conj eq_refl (conj eq_refl (conj eq_refl
           (H (Fixture.answer 200) _ eq_refl eq_refl eq_refl)))).
Defined.

Lemma failure_returns_zero_witness :
  let e := Fixture.device 503 Fixture.plain in
  (errorOf (List e Fixture.start) = Some ErrUnexpectedResponse
   /\ valueOf (List e Fixture.start) = None)
  /\ (errorOf (Get e Fixture.start) = Some ErrUnexpectedResponse
      /\ valueOf (Get e Fixture.start) = "").
Proof.
  intros e.
  assert (H1 : errorOf (List e Fixture.start) = Some ErrUnexpectedResponse)
    by reflexivity.
  assert (H2 : errorOf (Get e Fixture.start) = Some ErrUnexpectedResponse)
    by reflexivity.
  destruct (failure_returns_zero e Fixture.start ErrUnexpectedResponse)
    as [HList HGet].
  exact (conj (conj H1 (HList H1)) (conj H2 (HGet H2))).
Defined.

End Witnesses.

(** ** Examples *)

Example parse_two_panels :
  Grammar.parse "2 1 1 255 0 0 0 5 2 2 0 255 0 0 3 0 0 255 0 7"
  = Some (Grammar.ofEffect Fixture.twoPanels).
Proof. reflexivity. Qed.

(** The reader is strict: a trailing delimiter, a missing frame or a
    fourth field other than 0 is refused. *)
Example parse_refuses :
  Grammar.parse "0 " = None
  /\ Grammar.parse "1 7 2 1 2 3 0 4" = None
  /\ Grammar.parse "1 7 1 1 2 3 9 4" = None.
Proof. repeat split. Qed.

(** [AddEffect] on a definition that names the command ["delete"] and the
    effect ["Old"] sends ["add"] and the new name. *)
Example AddEffect_overrides_stale :
  map fst (wire (worldOf (AddEffect (Fixture.device 204 []) Fixture.stale
                            "Sunrise" Fixture.start)))
  = [Fixture.putting
       [("write",
         JEffectData (setName "Sunrise" (setCommand "add" zeroEffectData)))]].
Proof. reflexivity. Qed.

(** * Further properties of the methods *)

(** Rewrites the goal with the tests already decided. *)
Ltac recall :=
  repeat match goal with
         | H : ?b = _ |- context [?b] => rewrite H
         end.

(** A call unfolded, split into its paths, and tied to the exchange of
    the hypothesis. *)
Ltac paths := run; branches; same_reply.

Ltac constants :=
  unfold expectedStatus, http.StatusOK, http.StatusNoContent,
    http.StatusUnauthorized, http.StatusNotFound in *.

Section Protocol.

Context {UnmarshalNames : Unmarshal (slice string)}
        {UnmarshalName : Unmarshal string}
        {UnmarshalData : Unmarshal EffectData}
        {UnmarshalAll : Unmarshal animationsDoc}.

(** X1. Every call hands one request to the client, and when the client
    obtains no response to it, the call returns the client's error
    unchanged, the zero value of its result type, and prints nothing. *)
Theorem transport_error_propagates (c : Call) (e : NanoEffects)
    (w : World) :
  exists q : Request,
    exchanged w (worldOf (invoke c e w)) q (client (nano e) q)
    /\ forall err : error,
         client (nano e) q = Failed err ->
         errorOf (invoke c e w) = Some err
         /\ valueOf (invoke c e w) = zeroValue c
         /\ stdout (worldOf (invoke c e w)) = stdout w.
Proof.
  destruct c; sends; intros err Hr; replied; repeat split; reflexivity.
Qed.

(** X2. Every call hands one request to the client, and on any response
    to it the error of the call is the one table [verdict]:
    [ErrUnauthorized] on 401; [ErrEffectNotFound] on 404 for the six
    methods that test for it; [ErrUnexpectedResponse] on any status
    other than 200 (decoding methods) or 204 (the others); then
    [ErrParsingJSON] if the decoder rejects the body, and no error
    otherwise. *)
Theorem error_is_verdict (c : Call) (e : NanoEffects) (w : World) :
  exists q : Request,
    exchanged w (worldOf (invoke c e w)) q (client (nano e) q)
    /\ forall resp : Response,
         client (nano e) q = Answered resp ->
         errorOf (invoke c e w) = verdict c resp.
Proof.
  destruct c; sends; intros resp Hr; replied;
    unfold verdict, decodeError; constants;
    cbn [checksNotFound returnsBody andb]; recall; cbn [snd negb];
    reflexivity.
Qed.

(** X3. Every call hands one request to the client, and on a response to
    it the call returns no error exactly when the response has the
    status the method expects (200 for the decoding methods, 204 for the
    others) and, for a decoding method, the decoder accepts the body. *)
Theorem succeeds_iff (c : Call) (e : NanoEffects) (w : World) :
  exists q : Request,
    exchanged w (worldOf (invoke c e w)) q (client (nano e) q)
    /\ forall resp : Response,
         client (nano e) q = Answered resp ->
         (errorOf (invoke c e w) = None
          <-> StatusCode resp = expectedStatus c
              /\ decodeError c (Body resp) = None).
Proof.
  destruct c; sends; intros resp Hr; replied;
    unfold decodeError; constants; cbn [returnsBody]; recall; cbn [snd];
    status; split;
    solve [ intros; split; solve [reflexivity | congruence | discriminate]
          | intros [? ?]; solve [reflexivity | congruence | discriminate] ].
Qed.

(** X4. Every call hands one request to the client.  On a response, what
    the call prints is [printed]: the decoder's error message, from
    [GetEffectData] and [GetAllEffectData] only, on a 200 response whose
    body the decoder rejects, and nothing on any other path.  When the
    client obtains no response, the call prints nothing. *)
Theorem prints_only_decode_error (c : Call) (e : NanoEffects) (w : World) :
  exists q : Request,
    exchanged w (worldOf (invoke c e w)) q (client (nano e) q)
    /\ (forall resp : Response,
          client (nano e) q = Answered resp ->
          stdout (worldOf (invoke c e w))
          = (stdout w ++ printed c resp)%list)
    /\ (forall err : error,
          client (nano e) q = Failed err ->
          stdout (worldOf (invoke c e w)) = stdout w).
Proof.
  destruct c; sends; (split; [intros resp Hr | intros err Hr]); replied;
    try reflexivity;
    unfold printed, decodeError; constants; cbn [printsDecodeError andb];
    recall; cbn [snd]; status;
    repeat match goal with
           | |- context [?x =? 200] =>
             destruct (Z.eqb_spec x 200); try congruence
           end;
    rewrite ?app_nil_r; reflexivity.
Qed.

(** X5. Whatever a method makes of a response whose status is not 200,
    the value it returns is the zero value of its result type. *)
Theorem value_zero_unless_200 (c : Call) (e : NanoEffects) (w : World)
    (q : Request) (resp : Response) :
  exchanged w (worldOf (invoke c e w)) q (Answered resp) ->
  StatusCode resp <> 200 ->
  valueOf (invoke c e w) = zeroValue c.
Proof.
  intros H Hs; revert H.
  destruct c; paths; try discriminate; status; constants;
    solve [reflexivity | congruence].
Qed.

(** X6. Every call hands one request to the client, and when the call
    returns no error on a response to it, its value is what
    [json.Unmarshal] made of the response body, starting from the zero
    value of the target. *)
Theorem success_value_is_decoded (c : Call) (e : NanoEffects) (w : World) :
  exists q : Request,
    exchanged w (worldOf (invoke c e w)) q (client (nano e) q)
    /\ forall resp : Response,
         client (nano e) q = Answered resp ->
         errorOf (invoke c e w) = None ->
         valueOf (invoke c e w) = decoded c (Body resp).
Proof.
  destruct c; sends; intros resp Hr; replied;
    intros He; try discriminate He;
    unfold decoded; recall; reflexivity.
Qed.

(** X7. [GetEffectData] and [GetAllEffectData] hand one request to the
    client, and on a 200 response to it they return whatever
    [json.Unmarshal] left in the target, also when it reports an error:
    a caller that ignores the error gets part-decoded data. *)
Theorem partial_data_returned (c : Call) (e : NanoEffects) (w : World) :
  printsDecodeError c = true ->
  exists q : Request,
    exchanged w (worldOf (invoke c e w)) q (client (nano e) q)
    /\ forall resp : Response,
         client (nano e) q = Answered resp ->
         StatusCode resp = 200 ->
         valueOf (invoke c e w) = decoded c (Body resp).
Proof.
  intros Hc.
  destruct c; try discriminate Hc; clear Hc;
    sends; intros resp Hr Hs; replied; status; constants;
    try congruence; unfold decoded; recall; reflexivity.
Qed.

(** X8. Every method makes exactly one exchange, after those already
    made: a GET without headers or body to the endpoint followed by
    [/effectsList] or [/select] for [List] and [Get], a PUT with a JSON
    content type and a body to the endpoint itself for every other
    method.  The reply is the client's; nothing is retried. *)
Theorem one_request_per_call (c : Call) (e : NanoEffects) (w : World) :
  exists q : Request,
    exchanged w (worldOf (invoke c e w)) q (client (nano e) q)
    /\ method q = verbOf c
    /\ target q = (endpoint e ++ pathOf c)%string
    /\ header q = headersOf c
    /\ (payload q = None <-> verbOf c = GET).
Proof.
  destruct c; run;
    match goal with
    | |- context [client ?n ?q] => exists q; destruct (client n q)
    end;
    branches;
    cbn [method target header payload verbOf pathOf headersOf];
    rewrite ?append_empty_r;
    (split; [reflexivity |]); (split; [reflexivity |]);
    (split; [reflexivity |]); (split; [reflexivity |]);
    split; intros; solve [reflexivity | discriminate].
Qed.

(** X9. On a [NanoEffects] made by [newNanoEffects], every request goes
    to [<url>/<token>/effects], followed by the path of the call. *)
Theorem newNanoEffects_target (n : Nanoleaf) (c : Call) (w : World) :
  exists (q : Request) (a : Reply),
    exchanged w (worldOf (invoke c (newNanoEffects n) w)) q a
    /\ target q
       = (url n ++ "/" ++ token n ++ "/effects" ++ pathOf c)%string.
Proof.
  destruct c; run;
    match goal with
    | |- context [client ?m ?q] => exists q, (client m q); destruct (client m q)
    end;
    branches; cbn [target pathOf endpoint newNanoEffects];
    (split; [reflexivity |]);
    rewrite ?append_empty_r, ?append_assoc; cbn; reflexivity.
Qed.

(** X10. Each typed write method sends a body with the single key
    ["write"], and the value under it carries the method's command:
    request, requestAll, rename, add, delete, display or displayTemp. *)
Theorem write_envelope (c : Call) (tag : string) (e : NanoEffects)
    (w : World) :
  tagOf c = Some tag ->
  exists (q : Request) (a : Reply) (inner : jsonValue),
    exchanged w (worldOf (invoke c e w)) q a
    /\ payload q = Some [("write", inner)]
    /\ commandOf inner = Some tag.
Proof.
  intros Ht.
  destruct c; try discriminate Ht; injection Ht as <-; run;
    match goal with
    | |- context [client ?m ?q] =>
      match q with
      | context [("write", ?v)] =>
        exists q, (client m q), v; destruct (client m q)
      end
    end;
    branches; (split; [reflexivity | split; reflexivity]).
Qed.

(** X11. [WriteRaw] sends the caller's payload as the whole request
    body, as it is: it adds no ["write"] key around it.  [Set] sends
    [{"select": name}]. *)
Theorem WriteRaw_sends_body_as_is (e : NanoEffects) (w : World) :
  (forall body, exists a,
      exchanged w (worldOf (WriteRaw e body w))
        {| method := PUT; target := endpoint e;
           header := [("Content-Type", "application/json")];
           payload := Some body |} a)
  /\ (forall name, exists a,
         exchanged w (worldOf (Set_ e name w))
           {| method := PUT; target := endpoint e;
              header := [("Content-Type", "application/json")];
              payload := Some [("select", JString name)] |} a).
Proof.
  split; intros x; run;
    match goal with
    | |- context [client ?m ?q] => exists (client m q); destruct (client m q)
    end;
    branches; reflexivity.
Qed.

(** X12. [AddEffect] does not depend on the command and the name the
    caller's definition carries: two definitions that agree on every
    other field give the same request and the same result. *)
Theorem AddEffect_ignores_command_and_name (e : NanoEffects)
    (data data' : EffectData) (animName : string) (w : World) :
  sameDefinition data data' ->
  AddEffect e data animName w = AddEffect e data' animName w.
Proof.
  intros H.
  assert (Hsent : setName animName (setCommand "add" data)
                  = setName animName (setCommand "add" data')).
  { unfold sameDefinition in H. destruct data, data'; cbn in *.
    unfold setName, setCommand; cbn.
    repeat match goal with H : _ /\ _ |- _ => destruct H end; subst.
    reflexivity. }
  unfold AddEffect. rewrite Hsent. reflexivity.
Qed.

End Protocol.

(** * Further properties of the encoder *)

Section EncoderFacts.

Import Grammar.

(** The fields of the encoding are the integers of the grammar, printed. *)
Lemma fields_ToString (e : NanoEffects) (effect : StreamEffect) :
  fields (ToString e effect) = map fmt.d (numbers (ofEffect effect)).
Proof.
  rewrite ToString_numbers.
  rewrite fields_spaced by auto using Forall_noSpace_d, noSpace_d.
  reflexivity.
Qed.

(** Reading the encoding by the grammar succeeds. *)
Lemma parse_ToString (e : NanoEffects) (effect : StreamEffect) :
  parse (ToString e effect) = Some (ofEffect effect).
Proof.
  unfold parse. rewrite fields_ToString, integers_d. apply read_numbers.
Qed.

Lemma length_frameNumbers (fs : list StreamFrame) :
  List.length (flat_map frameNumbers (map ofFrame fs))
  = (5 * List.length fs)%nat.
Proof.
  induction fs as [|f fs IH]; [reflexivity |].
  cbn [map flat_map]. rewrite length_app, IH. cbn [frameNumbers List.length].
  lia.
Qed.

Lemma length_panelNumbers (ps : list StreamPanel) :
  List.length (flat_map panelNumbers (map ofPanel ps))
  = (2 * List.length ps
     + 5 * list_sum (map (fun p => List.length (Frames p)) ps))%nat.
Proof.
  induction ps as [|p ps IH]; [reflexivity |].
  cbn [map flat_map list_sum fold_right]. fold (list_sum (map (fun p => List.length (Frames p)) ps)).
  rewrite length_app, IH.
  cbn [panelNumbers ofPanel frames List.length].
  rewrite length_frameNumbers. lia.
Qed.

Lemma integer_empty : integer "" = None.
Proof. reflexivity. Qed.

(** X13. Two animations with the same encoding are the same animation:
    the encoding loses nothing of the panels, their order, their frames or
    the frames' values. *)
Theorem ToString_injective (e e' : NanoEffects) (a b : StreamEffect) :
  ToString e a = ToString e' b -> a = b.
Proof.
  intros H.
  assert (Ha : Some (ofEffect a) = Some (ofEffect b)).
  { rewrite <- (parse_ToString e a), <- (parse_ToString e' b).
    f_equal. exact H. }
  apply (f_equal (option_map toEffect)) in Ha. cbn [option_map] in Ha.
  rewrite (toEffect_ofEffect a), (toEffect_ofEffect b) in Ha.
  congruence.
Qed.

(** X14. The encoding of an animation with P panels and F frames in all
    has exactly 1 + 2 P + 5 F fields. *)
Theorem ToString_field_count (e : NanoEffects) (effect : StreamEffect) :
  List.length (fields (ToString e effect))
  = (1 + 2 * List.length (Panels effect) + 5 * frameTotal effect)%nat.
Proof.
  rewrite fields_ToString, length_map.
  unfold numbers, ofEffect, frameTotal; cbn [panelCount panels List.length].
  rewrite length_panelNumbers. lia.
Qed.

(** X15. Every field of the encoding is a decimal integer, and none is
    empty: the encoding has no leading, trailing or doubled space,
    whatever values the frames hold. *)
Theorem ToString_fields_are_integers (e : NanoEffects)
    (effect : StreamEffect) :
  Forall (fun f => f <> EmptyString /\ exists n, integer f = Some n)
    (fields (ToString e effect)).
Proof.
  rewrite fields_ToString. apply Forall_forall. intros f Hf.
  apply in_map_iff in Hf as [n [<- _]].
  split; [| exists n; apply integer_d].
  intros Hempty. pose proof (integer_d n) as Hn.
  rewrite Hempty, integer_empty in Hn. discriminate Hn.
Qed.

(** X16. [Display] on the encoding of an animation sends a display
    command whose [animData] reads back, by the grammar, as that
    animation, next to the caller's loop flag. *)
Theorem Display_sends_the_animation (e : NanoEffects)
    (effect : StreamEffect) (loop : bool) (w : World) :
  exists (a : Reply) (inner : jsonPayload) (s : string),
    exchanged w (worldOf (Display e (ToString e effect) loop w))
      {| method := PUT; target := endpoint e;
         header := [("Content-Type", "application/json")];
         payload := Some [("write", JPayload inner)] |} a
    /\ lookup "animData" inner = Some (JString s)
    /\ parse s = Some (ofEffect effect)
    /\ lookup "loop" inner = Some (JBool loop)
    /\ commandOf (JPayload inner) = Some "display".
Proof.
  run.
  match goal with
  | |- context [client ?m ?q] =>
    match q with
    | context [("write", JPayload ?inner)] =>
      exists (client m q), inner, (ToString e effect); destruct (client m q)
    end
  end;
  branches;
  (split; [reflexivity |]); (split; [reflexivity |]);
  (split; [apply parse_ToString |]); split; reflexivity.
Qed.

End EncoderFacts.

(** ** The further properties at work on a device *)

Section MoreWitnesses.

#[local] Existing Instance Fixture.rejecting.

Lemma transport_error_propagates_witness :
  let e := Bench.unreachable in
  let err := ErrTransport "dial tcp: i/o timeout" in
  client (nano e) (Fixture.getting "/select") = Failed err
  /\ errorOf (invoke CallGet e Fixture.start) = Some err
  /\ valueOf (invoke CallGet e Fixture.start) = Active ""
  /\ stdout (worldOf (invoke CallGet e Fixture.start)) = [].
Proof.
  intros e err.
  destruct (transport_error_propagates CallGet e Fixture.start)
    as [q' [_ H]].
  exact (conj eq_refl (H err eq_refl)).
Defined.

(** [Set] answered with 200 instead of 204 is an unexpected response. *)
Lemma error_is_verdict_witness :
  let c := CallSet "Flow" in
  let e := Fixture.device 200 Fixture.plain in
  client (nano e) (Fixture.putting [("select", JString "Flow")])
  = Answered (Fixture.answer 200)
  /\ errorOf (invoke c e Fixture.start) = Some ErrUnexpectedResponse.
Proof.
  intros c e.
  destruct (error_is_verdict c e Fixture.start) as [q' [_ H]].
  exact (conj eq_refl (H (Fixture.answer 200) eq_refl)).
Defined.

Lemma succeeds_iff_witness :
  let c := CallRenameEffect "Flow" "Flow 2" in
  let e := Fixture.device 204 Fixture.plain in
  let q := Fixture.putting
             [("write", JPayload [("command", JString "rename");
                                  ("animName", JString "Flow");
                                  ("newName", JString "Flow 2")])] in
  client (nano e) q = Answered (Fixture.answer 204)
  /\ errorOf (invoke c e Fixture.start) = None.
Proof.
  intros c e q.
  destruct (succeeds_iff c e Fixture.start) as [q' [_ H]].
  exact (conj eq_refl
           (proj2 (H (Fixture.answer 204) eq_refl) (conj eq_refl eq_refl))).
Defined.

Lemma prints_only_decode_error_witness :
  let c := CallGetAllEffectData in
  let e := Fixture.device 200 Fixture.plain in
  let q := Fixture.putting
             [("write", JPayload [("command", JString "requestAll")])] in
  client (nano e) q = Answered (Fixture.answer 200)
  /\ stdout (worldOf (invoke c e Fixture.start))
     = ["unexpected end of JSON input"].
Proof.
  intros c e q.
  destruct (prints_only_decode_error c e Fixture.start) as [q' [_ [H _]]].
  exact (conj eq_refl (H (Fixture.answer 200) eq_refl)).
Defined.

Lemma value_zero_unless_200_witness :
  let c := CallGetEffectData "Flow" in
  let e := Fixture.device 404 Fixture.plain in
  let q := Fixture.putting
             [("write", JPayload [("command", JString "request");
                                  ("animName", JString "Flow")])] in
  exchanged Fixture.start (worldOf (invoke c e Fixture.start)) q
    (Answered (Fixture.answer 404))
  /\ StatusCode (Fixture.answer 404) <> 200
  /\ valueOf (invoke c e Fixture.start) = OneEffect zeroEffectData.
Proof.
  intros c e q.
  assert (H1 : exchanged Fixture.start (worldOf (invoke c e Fixture.start))
                 q (Answered (Fixture.answer 404))) by reflexivity.
  assert (H2 : StatusCode (Fixture.answer 404) <> 200) by discriminate.
  exact (conj H1 (conj H2
           (value_zero_unless_200 c e Fixture.start q _ H1 H2))).
Defined.

Lemma success_value_is_decoded_witness :
  let run := @invoke (Fixture.lenient _) (Fixture.lenient _)
               (Fixture.lenient _) (Fixture.lenient _) in
  let e := Fixture.device 200 Fixture.plain in
  client (nano e) (Fixture.getting "/effectsList")
  = Answered (Fixture.answer 200)
  /\ errorOf (run CallList e Fixture.start) = None
  /\ valueOf (run CallList e Fixture.start) = Names None.
Proof.
  intros run e.
  destruct (@success_value_is_decoded (Fixture.lenient _)
              (Fixture.lenient _) (Fixture.lenient _) (Fixture.lenient _)
              CallList e Fixture.start) as [q' [_ H]].
  exact (conj eq_refl (conj eq_refl
           (H (Fixture.answer 200) eq_refl eq_refl))).
Defined.

(** The decoder stops halfway: the caller gets the error and the name
    read so far. *)
Lemma partial_data_returned_witness :
  let run := @invoke (Fixture.rejecting _) (Fixture.rejecting _)
               Bench.halfway (Fixture.rejecting _) in
  let c := CallGetEffectData "Flow" in
  let e := Fixture.device 200 Fixture.plain in
  let q := Fixture.putting
             [("write", JPayload [("command", JString "request");
                                  ("animName", JString "Flow")])] in
  printsDecodeError c = true
  /\ client (nano e) q = Answered (Fixture.answer 200)
  /\ StatusCode (Fixture.answer 200) = 200
  /\ errorOf (run c e Fixture.start) = Some ErrParsingJSON
  /\ valueOf (run c e Fixture.start)
     = OneEffect (setName "Flo" zeroEffectData).
Proof.
  intros run c e q.
  assert (H0 : printsDecodeError c = true) by reflexivity.
  destruct (@partial_data_returned (Fixture.rejecting _)
              (Fixture.rejecting _) Bench.halfway (Fixture.rejecting _)
              c e Fixture.start H0) as [q' [_ H]].
  exact (conj H0 (conj eq_refl (conj eq_refl (conj eq_refl
           (H (Fixture.answer 200) eq_refl eq_refl))))).
Defined.

Lemma write_envelope_witness :
  let c := CallDisplayTemp "Flow" 30 in
  tagOf c = Some "displayTemp"
  /\ exists (q : Request) (a : Reply) (inner : jsonValue),
       exchanged Fixture.start
         (worldOf (invoke c (Fixture.device 204 []) Fixture.start)) q a
       /\ payload q = Some [("write", inner)]
       /\ commandOf inner = Some "displayTemp".
Proof.
  intros c.
  assert (H0 : tagOf c = Some "displayTemp") by reflexivity.
  exact (conj H0
           (write_envelope c "displayTemp" (Fixture.device 204 [])
              Fixture.start H0)).
Defined.

Lemma AddEffect_ignores_command_and_name_witness :
  let e := Fixture.device 204 [] in
  sameDefinition Fixture.stale zeroEffectData
  /\ AddEffect e Fixture.stale "Sunrise" Fixture.start
     = AddEffect e zeroEffectData "Sunrise" Fixture.start.
Proof.
  intros e.
  assert (H0 : sameDefinition Fixture.stale zeroEffectData)
    by (unfold sameDefinition; cbn; repeat split).
  exact (conj H0
           (AddEffect_ignores_command_and_name e Fixture.stale
              zeroEffectData "Sunrise" Fixture.start H0)).
Defined.

Lemma ToString_injective_witness :
  let e := Fixture.device 204 [] in
  let again : StreamEffect :=
    {| Panels := [ {| ID := 1; Frames := [Fixture.frame 255 0 0 5] |};
                   {| ID := 2; Frames := [Fixture.frame 0 255 0 3;
                                          Fixture.frame 0 0 255 7] |} ] |} in
  ToString e Fixture.twoPanels = ToString Bench.unreachable again
  /\ Fixture.twoPanels = again.
Proof.
  intros e again.
  assert (H0 : ToString e Fixture.twoPanels
               = ToString Bench.unreachable again) by reflexivity.
  exact (conj H0
           (ToString_injective e Bench.unreachable Fixture.twoPanels again
              H0)).
Defined.

End MoreWitnesses.

Example newNanoEffects_endpoint :
  endpoint (newNanoEffects Bench.panel)
  = "http://192.168.0.10:16021/api/v1/t0k3n/effects".
Proof. reflexivity. Qed.
